(** * CML optimisation pipeline: a shallow embedding of the predictive core

    The development follows the four modules under [backend/app/ml]:
    [preprocess.py], [model_elimination.py], [explainability.py] and
    [model_forecast.py].

    Modelling conventions.
    - A Python [float] is an exact rational [Q]; a cell that holds NaN (a
      missing measurement) or a non-finite quotient is [None].  Rounding is
      not modelled.
    - [np.sqrt] is [np_sqrt], a rational square root rounded down on a fine
      grid; it is zero at zero and positive on positive arguments.
    - A date is a day number; a pandas [Timestamp] holds no day after
      2262-04-11, and the historical frame has a date column also when it
      is empty.
    - A raised exception is a value of [exn] carried by [Raise].
    - Third-party learners (the boosted-tree classifier, the attribution
      explainer, the seasonal forecaster) are section variables: the
      theorems hold for whatever they return. *)

From Stdlib Require Import QArith Qabs Lqa ZArith Bool.
From stdpp Require Import gmap strings list fin_maps.

Set Default Proof Using "Type".

(** ** Exceptions and results *)

Inductive exn : Type :=
| ValueError (msg : string)
| KeyError (key : string)
| TypeError (msg : string)
| IndexError (msg : string)
| NotFittedError
| FileNotFoundError (path : string)
| UnpicklingError
| OutOfBoundsDatetime.

Inductive result (A : Type) : Type :=
| Ok (a : A)
| Raise (e : exn).
Arguments Ok {A} a.
Arguments Raise {A} e.

(** [result] is a monad; stdpp's [x ← r; k] threads the first exception. *)
Global Instance result_ret : MRet result := fun A a => Ok a.
Global Instance result_bind : MBind result := fun A B k r =>
  match r with
  | Ok a => k a
  | Raise e => Raise e
  end.

(** ** Numbers *)

(** A float cell: [Some q] is a finite number, [None] is NaN or an
    infinity. *)
Definition float := option Q.

Definition fadd (a b : float) : float :=
  match a, b with Some x, Some y => Some (x + y)%Q | _, _ => None end.
Definition fsub (a b : float) : float :=
  match a, b with Some x, Some y => Some (x - y)%Q | _, _ => None end.
Definition fmul (a b : float) : float :=
  match a, b with Some x, Some y => Some (x * y)%Q | _, _ => None end.
(** Division by zero gives an infinity or NaN, never an exception. *)
Definition fdiv (a b : float) : float :=
  match a, b with
  | Some x, Some y => if Qeq_bool y 0 then None else Some (x / y)%Q
  | _, _ => None
  end.

Definition Qsum (xs : list Q) : Q := fold_right Qplus 0%Q xs.
Definition Qmean (xs : list Q) : Q := (Qsum xs / inject_Z (Z.of_nat (length xs)))%Q.

(** [np.sqrt]: the integer root of the numerator times the denominator,
    taken with 64 extra binary digits. *)
Definition np_sqrt (x : Q) : Q :=
  (Z.sqrt (Qnum x * Zpos (Qden x) * 4 ^ 64) # (Qden x * 2 ^ 64))%Q.

(** Population variance, [ddof = 0], as [np.var] and [np.std] use it. *)
Definition np_var (xs : list Q) : Q :=
  let m := Qmean xs in Qmean (map (fun x => ((x - m) * (x - m))%Q) xs).
Definition np_std (xs : list Q) : Q := np_sqrt (np_var xs).

(** Sorting, for medians. *)
Fixpoint Qinsert (x : Q) (l : list Q) : list Q :=
  match l with
  | [] => [x]
  | y :: l' => if Qle_bool x y then x :: l else y :: Qinsert x l'
  end.
Definition Qsort (l : list Q) : list Q := fold_right Qinsert [] l.

(** [Series.median()]: NaN cells are skipped; an all-NaN column has a NaN
    median. *)
Definition median (col : list float) : float :=
  let xs := Qsort (omap id col) in
  let n := length xs in
  if (n =? 0)%nat then None
  else if Nat.odd n then nth_error xs (n / 2)
  else match nth_error xs (n / 2 - 1), nth_error xs (n / 2) with
       | Some a, Some b => Some ((a + b) / 2)%Q
       | _, _ => None
       end.

(** Strings in code-point order. *)
Fixpoint sinsert (x : string) (l : list string) : list string :=
  match l with
  | [] => [x]
  | y :: l' =>
      match String.compare x y with
      | Lt => x :: l
      | Eq => l
      | Gt => y :: sinsert x l'
      end
  end.
(** [np.unique]: the distinct values, sorted. *)
Definition np_unique (l : list string) : list string := fold_right sinsert [] l.

Definition count_occ_str (x : string) (l : list string) : nat :=
  length (List.filter (String.eqb x) l).

(** [Series.mode()]: the most frequent non-missing values, sorted; empty
    when every cell is missing. *)
Definition mode (col : list (option string)) : list string :=
  let xs := omap id col in
  let best := fold_right Nat.max 0%nat (map (fun x => count_occ_str x xs) xs) in
  List.filter (fun x => (count_occ_str x xs =? best)%nat) (np_unique xs).

(** ** preprocess.py *)

Module Preprocess.

Inductive CatCol := commodity | material_type | feature_type | risk_level.
Inductive NumCol :=
| design_thickness_mm | current_thickness_mm | average_corrosion_rate
| remaining_life_years | years_in_service | number_of_inspections
| data_quality_score.
Inductive EngCol :=
| total_corrosion_loss | thickness_ratio | inspection_frequency | risk_score.

Global Instance CatCol_eq_dec : EqDecision CatCol.
Proof. solve_decision. Defined.
Global Instance NumCol_eq_dec : EqDecision NumCol.
Proof. solve_decision. Defined.
Global Instance EngCol_eq_dec : EqDecision EngCol.
Proof. solve_decision. Defined.

Definition categorical_features : list CatCol :=
  [commodity; material_type; feature_type; risk_level].
Definition numerical_features : list NumCol :=
  [design_thickness_mm; current_thickness_mm; average_corrosion_rate;
   remaining_life_years; years_in_service; number_of_inspections;
   data_quality_score].
Definition engineered_features : list EngCol :=
  [total_corrosion_loss; thickness_ratio; inspection_frequency; risk_score].

(** A CML object as the record store hands it over.  An attribute that is
    [None] in Python is [None] here; [cml_risk_level] holds the value of
    the enumeration member. *)
Record CML := {
  cml_id : string;
  cml_commodity : option string;
  cml_material_type : option string;
  cml_feature_type : option string;
  cml_risk_level : option string;
  cml_num : NumCol → float;
  cml_elimination_candidate : option bool
}.

(** A row of the data frame.  The frame has its base columns as soon as it
    has one row, so these are plain fields; an [_encoded] or engineered
    column that has not been created reads [None]. *)
Record Row := {
  r_id : string;
  r_cat : CatCol → option string;
  r_num : NumCol → float;
  r_label : option bool;
  r_enc : CatCol → option Z;
  r_eng : EngCol → option float
}.

Definition DataFrame := list Row.

Definition _cmls_to_dataframe (cmls : list CML) : DataFrame :=
  map (fun cml =>
    {| r_id := cml_id cml;
       r_cat := fun c =>
         match c with
         | commodity => cml_commodity cml
         | material_type => cml_material_type cml
         | feature_type => cml_feature_type cml
         | risk_level =>
             match cml_risk_level cml with
             | Some v => Some v
             | None => Some "Unknown"%string
             end
         end;
       r_num := cml_num cml;
       r_label := cml_elimination_candidate cml;
       r_enc := fun _ => None;
       r_eng := fun _ => None |}) cmls.

(** [col in df.columns] for a base column: a frame built from an empty
    list has no columns at all. *)
Definition has_base_columns (df : DataFrame) : bool :=
  match df with [] => false | _ => true end.

Definition set_num (col : NumCol) (v : float) (r : Row) : Row :=
  {| r_id := r_id r; r_cat := r_cat r;
     r_num := fun c => if decide (c = col) then v else r_num r c;
     r_label := r_label r; r_enc := r_enc r; r_eng := r_eng r |}.
Definition set_cat (col : CatCol) (v : option string) (r : Row) : Row :=
  {| r_id := r_id r;
     r_cat := fun c => if decide (c = col) then v else r_cat r c;
     r_num := r_num r; r_label := r_label r; r_enc := r_enc r;
     r_eng := r_eng r |}.
Definition set_enc (col : CatCol) (v : Z) (r : Row) : Row :=
  {| r_id := r_id r; r_cat := r_cat r; r_num := r_num r;
     r_label := r_label r;
     r_enc := fun c => if decide (c = col) then Some v else r_enc r c;
     r_eng := r_eng r |}.
Definition set_eng (col : EngCol) (v : float) (r : Row) : Row :=
  {| r_id := r_id r; r_cat := r_cat r; r_num := r_num r;
     r_label := r_label r; r_enc := r_enc r;
     r_eng := fun c => if decide (c = col) then Some v else r_eng r c |}.

Definition num_column (col : NumCol) (df : DataFrame) : list float :=
  map (fun r => r_num r col) df.
Definition cat_column (col : CatCol) (df : DataFrame) : list (option string) :=
  map (fun r => r_cat r col) df.

(** [Series.fillna(v)] *)
Definition fillna_num (v : float) (x : float) : float :=
  match x with Some _ => x | None => v end.
Definition fillna_cat (v : string) (x : option string) : option string :=
  match x with Some _ => x | None => Some v end.

Definition impute_num (col : NumCol) (df : DataFrame) : DataFrame :=
  if has_base_columns df then
    let m := median (num_column col df) in
    map (fun r => set_num col (fillna_num m (r_num r col)) r) df
  else df.

Definition mode_or_unknown (col : list (option string)) : string :=
  match mode col with
  | m :: _ => m
  | [] => "Unknown"%string
  end.

Definition impute_cat (col : CatCol) (df : DataFrame) : DataFrame :=
  if has_base_columns df then
    let m := mode_or_unknown (cat_column col df) in
    map (fun r => set_cat col (fillna_cat m (r_cat r col)) r) df
  else df.

Definition _handle_missing_values (df : DataFrame) : DataFrame :=
  let df := fold_left (fun d col => impute_num col d) numerical_features df in
  fold_left (fun d col => impute_cat col d) categorical_features df.

(** [sklearn.preprocessing.LabelEncoder]: [classes_] is the sorted list of
    the distinct labels; a label is encoded as its position. *)
Record LabelEncoder := { classes_ : list string }.

Fixpoint index_of (x : string) (l : list string) : option nat :=
  match l with
  | [] => None
  | y :: l' => if String.eqb x y then Some 0%nat else S <$> index_of x l'
  end.

Definition le_fit (col : list string) : LabelEncoder :=
  {| classes_ := np_unique col |}.
(** [le.transform([x])[0]] raises on a label that was not fitted. *)
Definition le_transform (le : LabelEncoder) (x : string) : result Z :=
  match index_of x (classes_ le) with
  | Some i => Ok (Z.of_nat i)
  | None => Raise (ValueError "y contains previously unseen labels")
  end.
(** [x in le.classes_] *)
Definition in_classes (le : LabelEncoder) (x : string) : bool :=
  existsb (String.eqb x) (classes_ le).

(** [Series.astype(str)] *)
Definition astype_str (x : option string) : string :=
  match x with Some s => s | None => "None"%string end.

(** [sklearn.preprocessing.StandardScaler], one mean and one scale per
    column.  NaN cells are left out of the statistics and stay NaN; a
    column of zero variance is scaled by one. *)
Record ScalerCol := { mean_ : float; scale_ : float }.
Definition StandardScaler := option (NumCol → ScalerCol).

Definition scaler_fit_col (col : list float) : ScalerCol :=
  match omap id col with
  | [] => {| mean_ := None; scale_ := None |}
  | xs =>
      let v := np_var xs in
      {| mean_ := Some (Qmean xs);
         scale_ := Some (if Qeq_bool v 0 then 1%Q else np_sqrt v) |}
  end.
Definition scaler_fit (df : DataFrame) : NumCol → ScalerCol :=
  fun col => scaler_fit_col (num_column col df).
Definition scale_value (sc : ScalerCol) (x : float) : float :=
  fdiv (fsub x (mean_ sc)) (scale_ sc).
Definition scale_rows (sc : NumCol → ScalerCol) (df : DataFrame) : DataFrame :=
  map (fun r =>
    {| r_id := r_id r; r_cat := r_cat r;
       r_num := fun c => scale_value (sc c) (r_num r c);
       r_label := r_label r; r_enc := r_enc r; r_eng := r_eng r |}) df.

Record CMLPreprocessor := {
  scaler : StandardScaler;
  label_encoders : CatCol → option LabelEncoder
}.

(** [CMLPreprocessor.__init__] *)
Definition init : CMLPreprocessor :=
  {| scaler := None; label_encoders := fun _ => None |}.

Definition set_encoder (col : CatCol) (le : LabelEncoder) (pp : CMLPreprocessor)
  : CMLPreprocessor :=
  {| scaler := scaler pp;
     label_encoders := fun c => if decide (c = col) then Some le else label_encoders pp c |}.

Definition _engineer_features (df : DataFrame) : DataFrame :=
  map (fun r =>
    let r := set_eng total_corrosion_loss
               (fmul (r_num r average_corrosion_rate) (r_num r years_in_service)) r in
    let r := set_eng thickness_ratio
               (fdiv (r_num r current_thickness_mm)
                     (fadd (r_num r design_thickness_mm) (Some (1 # 1000000)%Q))) r in
    let r := set_eng inspection_frequency
               (fdiv (r_num r number_of_inspections)
                     (fadd (r_num r years_in_service) (Some 1%Q))) r in
    set_eng risk_score
      (fdiv (Some 1%Q) (fadd (r_num r remaining_life_years) (Some 1%Q))) r) df.

(** One turn of the encoding loop of [fit_transform]. *)
Definition fit_encode (st : CMLPreprocessor * DataFrame) (col : CatCol)
  : CMLPreprocessor * DataFrame :=
  let '(pp, df) := st in
  if has_base_columns df then
    let le := le_fit (map astype_str (cat_column col df)) in
    let code x := match index_of x (classes_ le) with
                  | Some i => Z.of_nat i
                  | None => (-1)%Z
                  end in
    (set_encoder col le pp,
     map (fun r => set_enc col (code (astype_str (r_cat r col))) r) df)
  else st.

Definition fit_transform (pp : CMLPreprocessor) (cmls : list CML)
  : CMLPreprocessor * DataFrame :=
  let df := _cmls_to_dataframe cmls in
  let df := _handle_missing_values df in
  let '(pp, df) := fold_left fit_encode categorical_features (pp, df) in
  let '(pp, df) :=
    if has_base_columns df then
      let sc := scaler_fit df in
      ({| scaler := Some sc; label_encoders := label_encoders pp |},
       scale_rows sc df)
    else (pp, df) in
  (pp, _engineer_features df).

(** The lambda applied to each cell in [transform]. *)
Definition encode_cell (le : LabelEncoder) (x : string) : result Z :=
  if in_classes le x then le_transform le x else Ok (-1)%Z.

Fixpoint encode_rows (col : CatCol) (le : LabelEncoder) (df : DataFrame)
  : result DataFrame :=
  match df with
  | [] => Ok []
  | r :: df' =>
      v ← encode_cell le (astype_str (r_cat r col));
      rest ← encode_rows col le df';
      Ok (set_enc col v r :: rest)
  end.

Definition transform_encode (pp : CMLPreprocessor) (rdf : result DataFrame)
  (col : CatCol) : result DataFrame :=
  df ← rdf;
  if has_base_columns df then
    match label_encoders pp col with
    | Some le => encode_rows col le df
    | None => Ok df
    end
  else Ok df.

Definition transform (pp : CMLPreprocessor) (cmls : list CML) : result DataFrame :=
  let df := _cmls_to_dataframe cmls in
  let df := _handle_missing_values df in
  df ← fold_left (transform_encode pp) categorical_features (Ok df);
  df ← (if has_base_columns df then
          match scaler pp with
          | Some sc => Ok (scale_rows sc df)
          | None => Raise NotFittedError
          end
        else Ok df);
  Ok (_engineer_features df).

(** Column labels, and [df[name]] read at one row. *)
Definition cat_name (c : CatCol) : string :=
  match c with
  | commodity => "commodity" | material_type => "material_type"
  | feature_type => "feature_type" | risk_level => "risk_level"
  end.
Definition num_name (c : NumCol) : string :=
  match c with
  | design_thickness_mm => "design_thickness_mm"
  | current_thickness_mm => "current_thickness_mm"
  | average_corrosion_rate => "average_corrosion_rate"
  | remaining_life_years => "remaining_life_years"
  | years_in_service => "years_in_service"
  | number_of_inspections => "number_of_inspections"
  | data_quality_score => "data_quality_score"
  end.
Definition eng_name (c : EngCol) : string :=
  match c with
  | total_corrosion_loss => "total_corrosion_loss"
  | thickness_ratio => "thickness_ratio"
  | inspection_frequency => "inspection_frequency"
  | risk_score => "risk_score"
  end.
Definition enc_name (c : CatCol) : string := cat_name c +:+ "_encoded".

Inductive Cell :=
| CellStr (s : option string)
| CellInt (z : Z)
| CellFloat (f : float)
| CellBool (b : option bool).

Definition get_cell (r : Row) (name : string) : option Cell :=
  if String.eqb name "cml_id" then Some (CellStr (Some (r_id r)))
  else if String.eqb name "elimination_candidate" then Some (CellBool (r_label r))
  else
    match List.find (fun c => String.eqb name (cat_name c)) categorical_features with
    | Some c => Some (CellStr (r_cat r c))
    | None =>
    match List.find (fun c => String.eqb name (num_name c)) numerical_features with
    | Some c => Some (CellFloat (r_num r c))
    | None =>
    match List.find (fun c => String.eqb name (enc_name c)) categorical_features with
    | Some c => CellInt <$> r_enc r c
    | None =>
    match List.find (fun c => String.eqb name (eng_name c)) engineered_features with
    | Some c => CellFloat <$> r_eng r c
    | None => None
    end end end end.

End Preprocess.

(** ** model_elimination.py *)

Module Elimination.
Import Preprocess.

Record PredictionResult := {
  probability : Q;
  confidence : Q;
  recommendation : string;
  threshold_used : Q
}.

Inductive log_record :=
| Info (msg : string)
| Warning (msg : string) (e : exn).

Section Classifier.

(** The fitted [xgb.XGBClassifier] and its [predict_proba(X)[:, 1]]. *)
Variable Model : Type.
Variable predict_proba : Model → list (list Cell) → result (list Q).

Record CMLEliminationModel := {
  model_path : string;
  model : option Model;
  preprocessor : CMLPreprocessor;
  feature_columns : option (list string);
  metrics : gmap string Q
}.

(** [df[self.feature_columns]] *)
Fixpoint select_row (names : list string) (r : Row) : result (list Cell) :=
  match names with
  | [] => Ok []
  | n :: names' =>
      match get_cell r n with
      | Some c => cs ← select_row names' r; Ok (c :: cs)
      | None => Raise (KeyError n)
      end
  end.
Fixpoint select_rows (names : list string) (df : DataFrame) : result (list (list Cell)) :=
  match df with
  | [] => Ok []
  | r :: df' => x ← select_row names r; xs ← select_rows names df'; Ok (x :: xs)
  end.
Definition select_columns (cols : option (list string)) (df : DataFrame)
  : result (list (list Cell)) :=
  match cols with
  | None => Raise (KeyError "None")
  | Some names =>
      match df, names with
      | [], n :: _ => Raise (KeyError n)
      | _, _ => select_rows names df
      end
  end.

(** [(probabilities >= threshold).astype(int)], one entry *)
Definition prediction (threshold p : Q) : Z :=
  if Qle_bool threshold p then 1%Z else 0%Z.

(** Python's [max(a, b)] *)
Definition py_max (a b : Q) : Q := if Qlt_le_dec a b then b else a.

Definition make_result (threshold p : Q) : PredictionResult :=
  {| probability := p;
     confidence := py_max p (1 - p)%Q;
     recommendation :=
       if (prediction threshold p =? 1)%Z then "eliminate" else "keep";
     threshold_used := threshold |}.

(** The loop [for i, cml in enumerate(cmls)] that fills [results]. *)
Fixpoint build_results (threshold : Q) (probabilities : list Q) (i : nat)
  (cmls : list CML) (results : gmap string PredictionResult)
  : result (gmap string PredictionResult) :=
  match cmls with
  | [] => Ok results
  | cml :: rest =>
      match probabilities !! i with
      | Some p =>
          build_results threshold probabilities (S i) rest
            (<[cml_id cml := make_result threshold p]> results)
      | None => Raise (IndexError "index out of bounds")
      end
  end.

Definition predict (self : CMLEliminationModel) (cmls : list CML) (threshold : Q)
  : result (gmap string PredictionResult) :=
  match model self with
  | None => Raise (ValueError "Model not trained or loaded")
  | Some m =>
      df ← transform (preprocessor self) cmls;
      X ← select_columns (feature_columns self) df;
      probabilities ← predict_proba m X;
      build_results threshold probabilities 0 cmls ∅
  end.

(** The number of entries of a result that recommend elimination. *)
Definition count_eliminate (results : gmap string PredictionResult) : nat :=
  size (filter (λ kv, recommendation kv.2 = "eliminate") results).

(** *** Persistence *)

(** What [pickle.load] can hand back: the dictionary written by
    [save_model], possibly with entries missing, or some other object. *)
Record Bundle := {
  b_model : option (option Model);
  b_preprocessor : option CMLPreprocessor;
  b_feature_columns : option (option (list string));
  b_metrics : option (gmap string Q)
}.
Inductive pickled := PDict (b : Bundle) | POther.
Inductive file := Corrupt | Pickle (p : pickled).

(** Statements of a method body run on [self]; an exception leaves the
    assignments made so far in place. *)
Definition Method (A : Type) : Type :=
  CMLEliminationModel → CMLEliminationModel * result A.
Definition lift {A} (r : result A) : Method A := fun self => (self, r).
Definition andthen {A B} (m : Method A) (k : A → Method B) : Method B :=
  fun self =>
    match m self with
    | (self', Ok a) => k a self'
    | (self', Raise e) => (self', Raise e)
    end.
Definition assign (f : CMLEliminationModel → CMLEliminationModel) : Method unit :=
  fun self => (f self, Ok tt).

Definition open_rb (fs : gmap string file) (path : string) : result file :=
  match fs !! path with
  | Some f => Ok f
  | None => Raise (FileNotFoundError path)
  end.
Definition pickle_load (f : file) : result pickled :=
  match f with
  | Pickle p => Ok p
  | Corrupt => Raise UnpicklingError
  end.
(** [model_data[key]] *)
Definition getitem {A} (key : string) (proj : Bundle → option A) (d : pickled)
  : result A :=
  match d with
  | PDict b =>
      match proj b with
      | Some v => Ok v
      | None => Raise (KeyError key)
      end
  | POther => Raise (TypeError "object is not subscriptable")
  end.
(** [model_data.get('metrics', {})] *)
Definition get_metrics (d : pickled) : result (gmap string Q) :=
  match d with
  | PDict b => Ok (default ∅ (b_metrics b))
  | POther => Raise (TypeError "object has no attribute get")
  end.

Definition load_model_try (fs : gmap string file) : Method unit :=
  fun self0 =>
  andthen (lift (open_rb fs (model_path self0))) (fun f =>
  andthen (lift (pickle_load f)) (fun model_data =>
  andthen (lift (getitem "model" b_model model_data)) (fun v =>
  andthen (assign (fun self =>
    {| model_path := model_path self; model := v;
       preprocessor := preprocessor self;
       feature_columns := feature_columns self; metrics := metrics self |})) (fun _ =>
  andthen (lift (getitem "preprocessor" b_preprocessor model_data)) (fun v =>
  andthen (assign (fun self =>
    {| model_path := model_path self; model := model self;
       preprocessor := v;
       feature_columns := feature_columns self; metrics := metrics self |})) (fun _ =>
  andthen (lift (getitem "feature_columns" b_feature_columns model_data)) (fun v =>
  andthen (assign (fun self =>
    {| model_path := model_path self; model := model self;
       preprocessor := preprocessor self;
       feature_columns := v; metrics := metrics self |})) (fun _ =>
  andthen (lift (get_metrics model_data)) (fun v =>
  assign (fun self =>
    {| model_path := model_path self; model := model self;
       preprocessor := preprocessor self;
       feature_columns := feature_columns self; metrics := v |})))))))))) self0.

(** [load_model]: the [try] body, then the handler that only logs. *)
Definition load_model (fs : gmap string file) (self : CMLEliminationModel)
  : CMLEliminationModel * list log_record :=
  match load_model_try fs self with
  | (self', Ok _) => (self', [Info "Model loaded"])
  | (self', Raise e) => (self', [Warning "Failed to load model" e])
  end.

End Classifier.

Arguments model_path {Model} _.
Arguments model {Model} _.
Arguments preprocessor {Model} _.
Arguments feature_columns {Model} _.
Arguments metrics {Model} _.

End Elimination.

(** ** model_forecast.py *)

Module Forecast.

(** Dates are proleptic Gregorian day numbers, as [date.toordinal]. *)
Definition is_leap (y : Z) : bool :=
  ((y mod 4 =? 0) && (negb (y mod 100 =? 0) || (y mod 400 =? 0)))%Z.
Definition days_before_year (y : Z) : Z :=
  let p := (y - 1)%Z in (p * 365 + p / 4 - p / 100 + p / 400)%Z.
Definition days_in_month (y : Z) (m : nat) : Z :=
  match m with
  | 2%nat => if is_leap y then 29%Z else 28%Z
  | 4%nat | 6%nat | 9%nat | 11%nat => 30%Z
  | _ => 31%Z
  end.
Definition days_before_month (y : Z) (m : nat) : Z :=
  fold_right Z.add 0%Z (map (days_in_month y) (seq 1 (m - 1))).
Definition toordinal (y : Z) (m : nat) (d : Z) : Z :=
  (days_before_year y + days_before_month y m + d)%Z.

(** The last day a pandas [Timestamp] can hold, 2262-04-11: it counts
    nanoseconds in 64 bits. *)
Definition Timestamp_max : Z := toordinal 2262 4 11.

(** One row of the historical frame.  Column [ds] holds dates (its dtype
    is [datetime64[ns]], also when the frame has no row); column [y] holds
    floats, NaN for a reading that is missing. *)
Record Obs := { ds : Z; y : float }.

(** One row of a forecast frame. *)
Record ForecastRow := {
  f_ds : Z;
  yhat : Q;
  yhat_lower : Q;
  yhat_upper : Q
}.

Inductive model_type := prophet | linear | arima.

(** [df['ds'].min()] and [df['ds'].max()]; [None] is NaT. *)
Definition ds_min (df : list Obs) : option Z :=
  match df with
  | [] => None
  | o :: df' => Some (fold_left Z.min (map ds df') (ds o))
  end.
Definition ds_max (df : list Obs) : option Z :=
  match df with
  | [] => None
  | o :: df' => Some (fold_left Z.max (map ds df') (ds o))
  end.

(** [sklearn.linear_model.LinearRegression] on one regressor: the
    least-squares line through the centred data, the minimum-norm one
    (slope zero) when the regressor is constant.  Both [fit] and [predict]
    refuse an array without rows; [fit] then refuses a target that holds
    NaN. *)
Record LinearRegression := { coef_ : Q; intercept_ : Q }.

Definition no_samples : exn :=
  ValueError
    "Found array with 0 sample(s) (shape=(0, 1)) while a minimum of 1 is required by LinearRegression.".
Definition nan_in_y : exn := ValueError "Input y contains NaN.".

(** The validation of the target: its values, when none is NaN. *)
Fixpoint finite_values (y : list float) : result (list Q) :=
  match y with
  | [] => Ok []
  | Some v :: y' => vs ← finite_values y'; Ok (v :: vs)
  | None :: _ => Raise nan_in_y
  end.

Definition lr_fit (X : list Q) (y : list float) : result LinearRegression :=
  match X with
  | [] => Raise no_samples
  | _ =>
      y ← finite_values y;
      let xm := Qmean X in
      let ym := Qmean y in
      let sxx := Qsum (map (fun x => (x - xm) * (x - xm))%Q X) in
      let sxy := Qsum (zip_with (fun x v => (x - xm) * (v - ym))%Q X y) in
      let c := if Qeq_bool sxx 0 then 0%Q else (sxy / sxx)%Q in
      Ok {| coef_ := c; intercept_ := (ym - c * xm)%Q |}
  end.
Definition lr_predict (m : LinearRegression) (X : list Q) : result (list Q) :=
  match X with
  | [] => Raise no_samples
  | _ => Ok (map (fun x => (intercept_ m + coef_ m * x)%Q) X)
  end.

(** [range(1, periods + 1)] *)
Definition range1 (periods : Z) : list Z :=
  map (fun i => Z.of_nat i) (seq 1 (Z.to_nat periods)).

Definition days_since (origin : option Z) (d : Z) : Q :=
  match origin with
  | Some m => inject_Z (d - m)
  | None => 0%Q
  end.

(** [last_date + timedelta(days=n)], for the positive [n] of the
    forecast: a [Timestamp] does not go past its last day. *)
Definition add_days (d n : Z) : result Z :=
  if (d + n <=? Timestamp_max)%Z then Ok (d + n)%Z else Raise OutOfBoundsDatetime.

(** [y - model.predict(X)] *)
Definition residuals (m : LinearRegression) (X y : list Q) : result (list Q) :=
  fitted ← lr_predict m X;
  Ok (zip_with (fun v f => (v - f)%Q) y fitted).

(** The future dates are built one after the other, so the first one
    past the last day of [Timestamp] ends the call.  Once the fit has
    passed, [y] holds no NaN: [omap id y] is all of it. *)
Definition _linear_forecast (df : list Obs) (periods : Z) : result (list ForecastRow) :=
  let X := map (fun o => days_since (ds_min df) (ds o)) df in
  let y := map y df in
  model ← lr_fit X y;
  let last_date := default 0%Z (ds_max df) in
  future_dates ← mapM (fun i => add_days last_date (30 * i)) (range1 periods);
  let future_days := map (days_since (ds_min df)) future_dates in
  predictions ← lr_predict model future_days;
  res ← residuals model X (omap id y);
  let std_error := np_std res in
  let margin := ((196 # 100) * std_error)%Q in
  Ok (zip_with (fun d p =>
        {| f_ds := d; yhat := p;
           yhat_lower := (p - margin)%Q;
           yhat_upper := (p + margin)%Q |}) future_dates predictions).

Section Engine.

(** The seasonal model: fitting, building the future frame and predicting
    over it, or the exception any of these raises (a missing package
    included). *)
Variable prophet_predict : list Obs → Z → result (list ForecastRow).

(** [forecast[forecast['ds'] > df['ds'].max()]]; nothing is later than
    NaT. *)
Definition after_history (df : list Obs) (r : ForecastRow) : bool :=
  match ds_max df with
  | Some m => (m <? f_ds r)%Z
  | None => false
  end.

Definition _prophet_forecast (df : list Obs) (periods : Z) : result (list ForecastRow) :=
  match prophet_predict df periods with
  | Ok forecast => Ok (List.filter (after_history df) forecast)
  | Raise _ => _linear_forecast df periods
  end.

Definition predict (mt : model_type) (historical_data : list Obs) (periods : Z)
  : result (list ForecastRow) :=
  match mt with
  | prophet => _prophet_forecast historical_data periods
  | linear => _linear_forecast historical_data periods
  | arima => _linear_forecast historical_data periods
  end.

End Engine.

End Forecast.

(** ** explainability.py *)

Module Explainability.

(** A Python [dict] with string keys: insertion-ordered, a repeated key
    keeps its place and takes the new value. *)
Definition pydict (V : Type) : Type := list (string * V).
Fixpoint dict_set {V} (k : string) (v : V) (d : pydict V) : pydict V :=
  match d with
  | [] => [(k, v)]
  | (k', v') :: d' =>
      if String.eqb k k' then (k, v) :: d' else (k', v') :: dict_set k v d'
  end.
(** [dict(pairs)] *)
Definition dict_of {V} (pairs : list (string * V)) : pydict V :=
  fold_left (fun d kv => dict_set kv.1 kv.2 d) pairs [].
Definition dict_values {V} (d : pydict V) : list V := map snd d.

(** What [explainer.shap_values(X)] returns: one matrix per class (a
    Python list) or a single matrix; and [explainer.expected_value]: an
    array with one entry per class, or a scalar. *)
Inductive ShapValues :=
| PerClass (classes : list (list (list Q)))
| Single (values : list (list Q)).
Inductive ExpectedValue :=
| BaseArray (a : list Q)
| BaseScalar (b : Q).

Record Explanation := {
  shap_values_ : pydict Q;
  top_features : list (string * Q);
  explanation : string;
  base_value_ : Q
}.
Record ExplainResult := {
  explanations : list Explanation;
  feature_importance : pydict float
}.

(** [list.sort(key=lambda x: abs(x[1]), reverse=True)]: stable, largest
    magnitude first. *)
Fixpoint insert_by_abs (x : string * Q) (l : list (string * Q)) : list (string * Q) :=
  match l with
  | [] => [x]
  | y :: l' =>
      if Qle_bool (Qabs y.2) (Qabs x.2) then x :: l
      else y :: insert_by_abs x l'
  end.
Definition sort_by_abs_desc (l : list (string * Q)) : list (string * Q) :=
  fold_right insert_by_abs [] l.

(** [', '.join(names)] *)
Fixpoint join (sep : string) (l : list string) : string :=
  match l with
  | [] => ""
  | [x] => x
  | x :: l' => x +:+ sep +:+ join sep l'
  end.

Definition _create_explanation (top : list (string * Q)) : string :=
  let positive_factors :=
    map fst (List.filter (fun fv => negb (Qle_bool fv.2 0)) top) in
  let negative_factors :=
    map fst (List.filter (fun fv => negb (Qle_bool 0 fv.2)) top) in
  let parts :=
    (match positive_factors with
     | [] => []
     | _ => ["Factors increasing elimination probability: "
               +:+ join ", " positive_factors]
     end) ++
    (match negative_factors with
     | [] => []
     | _ => ["Factors decreasing elimination probability: "
               +:+ join ", " negative_factors]
     end) in
  match parts with
  | [] => "No significant factors identified"
  | _ => join ". " parts
  end.

(** [np.abs(shap_values).mean(axis=0)]: one mean per column; the mean
    over no rows is NaN. *)
Definition column_mean_abs (n_features : nat) (values : list (list Q)) : list float :=
  map (fun j =>
         match values with
         | [] => None
         | _ => Some (Qmean (map (fun row => Qabs (nth j row 0%Q)) values))
         end) (seq 0 n_features).
Definition _get_global_importance (n_features : nat) (values : list (list Q))
  (feature_names : list string) : pydict float :=
  dict_of (zip feature_names (column_mean_abs n_features values)).

Section Explainer.

(** The [shap.TreeExplainer] built by [initialize]. *)
Variable Explainer : Type.
Variable shap_values : Explainer → list (list Q) → result ShapValues.
Variable expected_value : Explainer → ExpectedValue.

Record ModelExplainer := { explainer : option Explainer }.

Definition explain_row (feature_names : list string) (base_value : Q)
  (row : list Q) : Explanation :=
  let feature_contributions := sort_by_abs_desc (zip feature_names row) in
  let top := take 5 feature_contributions in
  {| shap_values_ := dict_of (zip feature_names row);
     top_features := top;
     explanation := _create_explanation top;
     base_value_ := base_value |}.

(** The body of the [try] block. *)
Definition explain_try (ex : Explainer) (n_features : nat) (X : list (list Q))
  (feature_names : list string) : result ExplainResult :=
  sv ← shap_values ex X;
  values ← match sv with
           | PerClass classes =>
               match classes !! 1%nat with
               | Some v => Ok v
               | None => Raise (IndexError "list index out of range")
               end
           | Single v => Ok v
           end;
  base_value ← match expected_value ex with
               | BaseArray a =>
                   match a !! 1%nat with
                   | Some b => Ok b
                   | None => Raise (IndexError "index 1 is out of bounds")
                   end
               | BaseScalar b => Ok b
               end;
  rows ← mapM (M := result) (fun i =>
            match values !! i with
            | Some row => Ok (explain_row feature_names base_value row)
            | None => Raise (IndexError "index out of bounds")
            end) (seq 0 (length X));
  Ok {| explanations := rows;
        feature_importance := _get_global_importance n_features values feature_names |}.

(** [explain_prediction]: [None] is the empty dictionary returned when
    the explainer is missing or anything in the [try] block raised.
    [n_features] is the number of columns of [X]. *)
Definition explain_prediction (self : ModelExplainer) (n_features : nat)
  (X : list (list Q)) (feature_names : list string) : option ExplainResult :=
  match explainer self with
  | None => None
  | Some ex =>
      match explain_try ex n_features X feature_names with
      | Ok r => Some r
      | Raise _ => None
      end
  end.

End Explainer.

Arguments explainer {Explainer} _.

End Explainability.

(** * Derived forms and sample data *)

(** ** Row-level forms of the pipeline and of its contracts *)

Module PreprocessSpec.
Import Preprocess.

(** The code a cell receives in [transform]. *)
Definition code (le : LabelEncoder) (x : string) : Z :=
  match index_of x (classes_ le) with
  | Some i => Z.of_nat i
  | None => (-1)%Z
  end.















Definition enc_cell (res : result DataFrame) (i : nat) (c : CatCol) : option Z :=
  match res with
  | Ok df => df !! i ≫= (fun r => r_enc r c)
  | Raise _ => None
  end.

Definition eng_cell (res : result DataFrame) (i : nat) (c : EngCol) : option float :=
  match res with
  | Ok df => df !! i ≫= (fun r => r_eng r c)
  | Raise _ => None
  end.

End PreprocessSpec.

Module EliminationSpec.
Import Elimination.

(** Two result dictionaries with the same keys, where every entry that
    says eliminate in the first also does in the second. *)
Definition below (r2 r1 : (gmap string PredictionResult)) : Prop :=
  ∀ k, match r2 !! k, r1 !! k with
       | Some a, Some b =>
           recommendation a = "eliminate" → recommendation b = "eliminate"
       | None, None => True
       | _, _ => False
       end.

Definition count_of (r : result (gmap string PredictionResult)) : option nat :=
  match r with
  | Ok res => Some (count_eliminate res)
  | Raise _ => None
  end.

End EliminationSpec.

Module ForecastSpec.
Import Forecast.

Definition rows_of (r : result (list ForecastRow)) : list ForecastRow :=
  match r with
  | Ok rows => rows
  | Raise _ => []
  end.

(** The readings of the scenario against the days since the first one:
    2020 is a leap year, so the second reading comes after 366 days and
    the third after 731. *)
Definition scenario_points : list (Q * Q) := [(0, 10); (366, 9); (731, 8)]%Q.

(** The least-squares line through these points, worked out by hand
    from the normal equations. *)
Definition scenario_line (x : Q) : Q := ((8015785 # 801542) - (2193 # 801542) * x)%Q.

(** The in-sample residuals of a line: each reading minus the value of
    the line on its day. *)
Definition in_sample_residuals (line : Q → Q) (points : list (Q * Q)) : list Q :=
  map (fun p => (p.2 - line p.1)%Q) points.

(** The normal equations of least squares: the residuals add up to zero,
    and so do their products with the regressor.  When the regressor
    takes two values, one line satisfies them. *)
Definition least_squares (line : Q → Q) (points : list (Q * Q)) : Prop :=
  (Qsum (in_sample_residuals line points) == 0)%Q ∧
  (Qsum (map (fun p => (p.1 * (p.2 - line p.1))%Q) points) == 0)%Q.

(** [s] is the standard deviation of [xs] to tolerance [tol]: it is not
    negative and its square is within [tol] of the mean squared distance
    of [xs] from its mean. *)
Definition std_of (tol : Q) (xs : list Q) (s : Q) : Prop :=
  (0 <= s)%Q ∧
  (Qabs (s * s - Qmean (map (fun x => (x - Qmean xs) * (x - Qmean xs)) xs)) <= tol)%Q.

End ForecastSpec.

Module ExplainabilitySpec.
Import Explainability.

(** The contract of an additive attribution method, to tolerance [eps]:
    for every row, the attributions are as many as the features and,
    added to the base value, give the model's raw output. *)
Definition additive (eps base : Q) (raw_output : list Q → Q)
  (X values : list (list Q)) : Prop :=
  Forall2 (fun x phi =>
             length phi = length x ∧
             (Qabs (base + Qsum phi - raw_output x) <= eps)%Q) X values.

(** The contract for what the explainer returns: a single matrix and a
    scalar base explain the raw output; one matrix per class and an array
    of bases explain, at index 1, the raw output of the positive class. *)
Definition explainer_additive {Explainer : Type}
  (shap_values : Explainer → list (list Q) → result ShapValues)
  (expected_value : Explainer → ExpectedValue)
  (eps : Q) (raw_output : list Q → Q) (ex : Explainer) (X : list (list Q)) : Prop :=
  match shap_values ex X, expected_value ex with
  | Ok (Single values), BaseScalar b => additive eps b raw_output X values
  | Ok (PerClass classes), BaseArray a =>
      ∀ values b, classes !! 1%nat = Some values → a !! 1%nat = Some b →
                  additive eps b raw_output X values
  | Ok _, _ => False
  | Raise _, _ => True
  end.

(** The result of [explain_prediction], empty when it returned [{}]. *)
Definition explained (o : option ExplainResult) : ExplainResult :=
  default {| explanations := []; feature_importance := [] |} o.

End ExplainabilitySpec.

(** ** Sample data *)

Module Samples.
Import Preprocess Elimination Forecast Explainability.

Definition sample_cml (id : string) (commodity : option string)
  (design current : float) : CML :=
  {| cml_id := id; cml_commodity := commodity;
     cml_material_type := Some "Carbon Steel";
     cml_feature_type := Some "Pipe"; cml_risk_level := Some "Low";
     cml_num := fun col =>
       match col with
       | design_thickness_mm => design
       | current_thickness_mm => current
       | _ => Some 1%Q
       end;
     cml_elimination_candidate := Some false |}.

(** Two records in service, both measured at 10.0 mm today. *)
Definition first_cml : CML := sample_cml "CML-1" (Some "Oil") (Some 10%Q) (Some 10%Q).
Definition second_cml : CML := sample_cml "CML-2" (Some "Gas") (Some 20%Q) (Some 10%Q).

Definition sample_batch : list CML := [first_cml; second_cml].


(** A record of a commodity that the sample batch does not have. *)
Definition novel_cml : CML := sample_cml "CML-9" (Some "Water") (Some 12%Q) (Some 11%Q).

Definition fitted_sample : CMLPreprocessor := (fit_transform init sample_batch).1.

(** A classifier that answers 0.6 and 0.8 on a batch of two rows. *)
Definition sample_proba (m : unit) (X : list (list Cell)) : result (list Q) :=
  Ok [(6 # 10)%Q; (8 # 10)%Q].

Definition trained_sample : CMLEliminationModel unit :=
  {| model_path := "data/models/cml_elimination_model.pkl";
     model := Some tt;
     preprocessor := fitted_sample;
     feature_columns := Some ["commodity_encoded"; "thickness_ratio"; "risk_score"];
     metrics := ∅ |}.

Definition untrained_sample : CMLEliminationModel unit :=
  {| model_path := "data/models/cml_elimination_model.pkl";
     model := None;
     preprocessor := init;
     feature_columns := None;
     metrics := ∅ |}.

(** A bundle written without its preprocessor. *)
Definition partial_bundle : Bundle unit :=
  {| b_model := Some (Some tt);
     b_preprocessor := None;
     b_feature_columns := Some (Some ["thickness_ratio"]);
     b_metrics := None |}.

Definition partial_fs : gmap string (file unit) :=
  {[ "data/models/cml_elimination_model.pkl" := Pickle unit (PDict unit partial_bundle) ]}.

(** Three yearly readings, taken on the first of January. *)
Definition scenario : list Obs :=
  [{| ds := toordinal 2020 1 1; y := Some 10%Q |};
   {| ds := toordinal 2021 1 1; y := Some 9%Q |};
   {| ds := toordinal 2022 1 1; y := Some 8%Q |}].

Definition single_reading : list Obs :=
  [{| ds := toordinal 2020 1 1; y := Some 10%Q |}].

(** The three readings with the second one missing. *)
Definition gap_scenario : list Obs :=
  [{| ds := toordinal 2020 1 1; y := Some 10%Q |};
   {| ds := toordinal 2021 1 1; y := None |};
   {| ds := toordinal 2022 1 1; y := Some 8%Q |}].

(** A seasonal model that cannot be fitted. *)
Definition prophet_fails (df : list Obs) (periods : Z) : result (list ForecastRow) :=
  Raise (ValueError "Dataframe has less than 2 non-NaN rows").

(** An explainer for a model whose raw output on a row is one half plus
    the sum of the row: per class, the attribution of a feature is its
    value, negated for class 0. *)
Definition sample_raw_output (x : list Q) : Q := ((1 # 2) + Qsum x)%Q.
Definition sample_shap_values (ex : unit) (X : list (list Q)) : result ShapValues :=
  Ok (PerClass [map (map Qopp) X; X]).
Definition sample_expected_value (ex : unit) : ExpectedValue :=
  BaseArray [(- (1 # 2))%Q; (1 # 2)%Q].
Definition sample_explainer : ModelExplainer unit := {| explainer := Some tt |}.
Definition sample_X : list (list Q) := [[1; 2]; [3; -4]]%Q.
Definition sample_feature_names : list string := ["thickness_ratio"; "risk_score"].

End Samples.

(** * Properties *)

(** ** Numbers *)

Lemma np_sqrt_zero (x : Q) : (x == 0)%Q → (np_sqrt x == 0)%Q.
Proof.
  intros Hx. unfold np_sqrt. destruct x as [n d]. unfold Qeq in *. simpl in *.
  assert (n = 0%Z) as -> by lia. reflexivity.
Qed.

Lemma np_sqrt_pos (x : Q) : (0 < x)%Q → (0 < np_sqrt x)%Q.
Proof.
  intros Hx. unfold np_sqrt. destruct x as [n d]. unfold Qlt in *. simpl in *.
  assert (0 < n)%Z as Hn by lia.
  assert (1 <= n * Z.pos d * 4 ^ 64)%Z as H1 by lia.
  assert (0 < Z.sqrt (n * Z.pos d * 4 ^ 64))%Z by (apply Z.sqrt_pos; lia).
  lia.
Qed.

(** ** Feature engineering *)

Module PreprocessFacts.
Import Preprocess PreprocessSpec Samples.

(** *** Label encoding *)











(** *** Imputation *)












(** *** The shape of [transform] *)



(** *** Rows through encoding, scaling and engineering *)






(** *** Fitting the encoders *)




(** *** Unseen categories, per-batch imputation, the thickness ratio *)









Example novel_commodity_encoded :
  enc_cell (transform fitted_sample [novel_cml; first_cml; second_cml]) 0 commodity
  = Some (-1)%Z ∧
  enc_cell (transform fitted_sample [novel_cml; first_cml; second_cml]) 1 commodity
  = Some 1%Z ∧
  enc_cell (transform fitted_sample [novel_cml; first_cml; second_cml]) 2 commodity
  = Some 0%Z.
Proof. repeat apply conj; vm_compute; reflexivity. Qed.


(** The ratio of the raw thicknesses of a record at design 10.0 and
    current 10.0 is within 1e-6 of one. *)
Example thickness_ratio_raw :
  ∃ q, fdiv (Some 10%Q) (fadd (Some 10%Q) (Some (1 # 1000000)%Q)) = Some q ∧
       (Qabs (q - 1) < 1 # 1000000)%Q.
Proof. eexists. split; [vm_compute; reflexivity|]. vm_compute. reflexivity. Qed.

(** C2 on the code: the first record of the sample batch has design
    thickness 10.0 and current thickness 10.0, yet its [thickness_ratio]
    is zero, both in the frame [fit_transform] returns and in the frame
    [transform] returns for that record alone, because the ratio is taken
    of the standardised columns. *)
Theorem thickness_ratio_of_scaled_columns :
  cml_num first_cml design_thickness_mm = Some 10%Q ∧
  cml_num first_cml current_thickness_mm = Some 10%Q ∧
  (∃ q, eng_cell (Ok (fit_transform init sample_batch).2) 0 thickness_ratio
        = Some (Some q) ∧ (q == 0)%Q) ∧
  (∃ q, eng_cell (transform fitted_sample [first_cml]) 0 thickness_ratio
        = Some (Some q) ∧ (q == 0)%Q).
Proof.
  split; [reflexivity|]. split; [reflexivity|]. split.
  - eexists. split; [vm_compute; reflexivity|]. vm_compute. reflexivity.
  - eexists. split; [vm_compute; reflexivity|]. vm_compute. reflexivity.
Qed.

End PreprocessFacts.

(** ** Threshold decisions *)

Module EliminationFacts.
Import Preprocess Elimination EliminationSpec Samples.

Section Classifier.

Variable Model : Type.
Variable predict_proba : Model → list (list Cell) → result (list Q).

Lemma recommendation_eliminate (t p : Q) :
  recommendation (make_result t p) = "eliminate" ↔ (t <= p)%Q.
Proof.
  unfold make_result, prediction. simpl. rewrite <- Qle_bool_iff.
  destruct (Qle_bool t p); simpl; split; intros; congruence.
Qed.

Lemma make_result_mono (t1 t2 p : Q) :
  (t1 <= t2)%Q →
  recommendation (make_result t2 p) = "eliminate" →
  recommendation (make_result t1 p) = "eliminate".
Proof.
  rewrite !recommendation_eliminate. intros H1 H2. exact (Qle_trans _ _ _ H1 H2).
Qed.

Lemma below_insert (r2 r1 : gmap string PredictionResult) k a b :
  below r2 r1 →
  (recommendation a = "eliminate" → recommendation b = "eliminate") →
  below (<[k:=a]> r2) (<[k:=b]> r1).
Proof.
  intros Hb Hab k'. destruct (decide (k = k')) as [->|Hne].
  - by rewrite !lookup_insert_eq.
  - rewrite !lookup_insert_ne by done. apply Hb.
Qed.

Lemma below_count (r2 r1 : gmap string PredictionResult) :
  below r2 r1 → count_eliminate r2 ≤ count_eliminate r1.
Proof.
  intros Hb. unfold count_eliminate.
  rewrite <- !(size_dom (D := gset string)). apply subseteq_size.
  intros k. rewrite !elem_of_dom. intros [a Ha].
  apply map_lookup_filter_Some in Ha as [Ha Hrec]. simpl in Hrec.
  specialize (Hb k). rewrite Ha in Hb.
  destruct (r1 !! k) as [b|] eqn:Hk; [|done].
  exists b. apply map_lookup_filter_Some. split; [done|]. simpl. auto.
Qed.

Lemma build_results_below (t1 t2 : Q) probs cmls :
  (t1 <= t2)%Q → ∀ i (r2 r1 : gmap string PredictionResult), below r2 r1 →
  match build_results t1 probs i cmls r1, build_results t2 probs i cmls r2 with
  | Ok o1, Ok o2 => below o2 o1
  | Raise e1, Raise e2 => e1 = e2
  | _, _ => False
  end.
Proof.
  intros Ht. induction cmls as [|cml rest IH]; intros i r2 r1 Hb; simpl.
  - done.
  - destruct (probs !! i) as [p|]; [|done].
    apply IH. apply below_insert; [done|]. by apply make_result_mono.
Qed.

(** C1: for one model, one batch and thresholds [t1 <= t2], [predict]
    returns under both thresholds or raises the same exception under
    both, and when it returns, the entries recommending elimination under
    [t2] are no more than those under [t1]. *)
Theorem predict_threshold_monotone
  (self : CMLEliminationModel Model) (cmls : list CML) (t1 t2 : Q) :
  (t1 <= t2)%Q →
  match predict Model predict_proba self cmls t1,
        predict Model predict_proba self cmls t2 with
  | Ok r1, Ok r2 => count_eliminate r2 ≤ count_eliminate r1
  | Raise e1, Raise e2 => e1 = e2
  | _, _ => False
  end.
Proof.
  intros Ht. unfold predict. destruct (model self) as [m|]; [|done].
  destruct (transform (preprocessor self) cmls) as [df|e]; simpl; [|done].
  destruct (select_columns (feature_columns self) df) as [X|e]; simpl; [|done].
  destruct (predict_proba m X) as [probs|e]; simpl; [|done].
  pose proof (build_results_below t1 t2 probs cmls Ht 0 ∅ ∅) as H.
  destruct (build_results t1 probs 0 cmls ∅), (build_results t2 probs 0 cmls ∅);
    try (by apply H; intros k; rewrite lookup_empty).
  apply below_count, H. intros k. by rewrite lookup_empty.
Qed.

(** C6: with no model trained or loaded, [predict] raises the
    model-unavailable error before it looks at the batch, whatever the
    batch and the threshold, and returns no result. *)
Theorem predict_requires_model
  (self : CMLEliminationModel Model) (cmls : list CML) (threshold : Q) :
  model self = None →
  predict Model predict_proba self cmls threshold
  = Raise (ValueError "Model not trained or loaded").
Proof. intros H. unfold predict. by rewrite H. Qed.

(** *** Loading a bundle *)

Lemma load_model_missing_file fs (self : CMLEliminationModel Model) :
  fs !! model_path self = None →
  load_model Model fs self
  = (self, [Warning "Failed to load model" (FileNotFoundError (model_path self))]).
Proof. intros H. unfold load_model, load_model_try, andthen, lift, open_rb. by rewrite H. Qed.

Lemma load_model_corrupt fs (self : CMLEliminationModel Model) :
  fs !! model_path self = Some (Corrupt Model) →
  load_model Model fs self = (self, [Warning "Failed to load model" UnpicklingError]).
Proof. intros H. unfold load_model, load_model_try, andthen, lift, open_rb. by rewrite H. Qed.

Lemma load_model_no_model_entry fs (self : CMLEliminationModel Model) b :
  fs !! model_path self = Some (Pickle Model (PDict Model b)) →
  b_model Model b = None →
  load_model Model fs self = (self, [Warning "Failed to load model" (KeyError "model")]).
Proof.
  intros H Hb. unfold load_model, load_model_try, andthen, lift, open_rb.
  rewrite H. simpl. by rewrite Hb.
Qed.

(** A bundle that has its model but not its preprocessor: the model is
    already assigned when the lookup of the preprocessor raises. *)
Lemma load_model_no_preprocessor_entry fs (self : CMLEliminationModel Model) b m :
  fs !! model_path self = Some (Pickle Model (PDict Model b)) →
  b_model Model b = Some m →
  b_preprocessor Model b = None →
  load_model Model fs self
  = ({| model_path := model_path self; model := m;
        preprocessor := preprocessor self;
        feature_columns := feature_columns self; metrics := metrics self |},
     [Warning "Failed to load model" (KeyError "preprocessor")]).
Proof.
  intros H Hm Hp. unfold load_model, load_model_try, andthen, lift, open_rb, assign.
  rewrite H. simpl. rewrite Hm. simpl. by rewrite Hp.
Qed.

(** C8, as the code has it: a load that fails before the first field is
    assigned (no file, bytes that do not unpickle, an object that is not a
    dictionary, a dictionary without its model) logs a warning and leaves
    the object as it was. *)
Theorem load_model_failure_keeps_state fs (self self' : CMLEliminationModel Model) e :
  load_model Model fs self = (self', [Warning "Failed to load model" e]) →
  e ≠ KeyError "preprocessor" →
  e ≠ KeyError "feature_columns" →
  self' = self.
Proof.
  unfold load_model, load_model_try, andthen, lift, open_rb, assign.
  destruct (fs !! model_path self) as [[|[b|]]|]; simpl;
    try (intros [= <- <-]; done).
  destruct (b_model Model b) as [m|]; simpl; [|intros [= <- <-]; done].
  destruct (b_preprocessor Model b) as [pp|]; simpl;
    [|intros [= <- <-]; done].
  destruct (b_feature_columns Model b) as [fc|]; simpl;
    [|intros [= <- <-]; done].
  intros [= <-].
Qed.

End Classifier.

(** *** Concrete runs *)

Example predict_sample_counts :
  count_of (predict unit sample_proba trained_sample sample_batch (1 # 2)) = Some 2%nat ∧
  count_of (predict unit sample_proba trained_sample sample_batch (7 # 10)) = Some 1%nat.
Proof. split; vm_compute; reflexivity. Qed.

Lemma predict_threshold_monotone_witness :
  (1 # 2 <= 7 # 10)%Q ∧
  match predict unit sample_proba trained_sample sample_batch (1 # 2),
        predict unit sample_proba trained_sample sample_batch (7 # 10) with
  | Ok r1, Ok r2 => count_eliminate r2 ≤ count_eliminate r1
  | Raise e1, Raise e2 => e1 = e2
  | _, _ => False
  end.
Proof.
  assert (1 # 2 <= 7 # 10)%Q as H by (unfold Qle; simpl; lia).
  split; [exact H|].
  exact (predict_threshold_monotone unit sample_proba trained_sample sample_batch
           (1 # 2) (7 # 10) H).
Defined.

Lemma predict_requires_model_witness :
  model untrained_sample = None ∧
  predict unit sample_proba untrained_sample sample_batch (7 # 10)
  = Raise (ValueError "Model not trained or loaded").
Proof.
  split; [reflexivity|].
  apply (predict_requires_model unit sample_proba untrained_sample sample_batch (7 # 10)).
  reflexivity.
Defined.

(** C8 fails as stated: loading the partial bundle is a failed load, yet
    the model field has been overwritten while the other fields keep
    their old values. *)
Lemma load_model_partial_overwrite :
  ∃ self',
    load_model unit partial_fs untrained_sample
    = (self', [Warning "Failed to load model" (KeyError "preprocessor")]) ∧
    model self' = Some tt ∧
    model untrained_sample = None ∧
    feature_columns self' = feature_columns untrained_sample ∧
    self' ≠ untrained_sample.
Proof.
  eexists. split.
  - apply load_model_no_preprocessor_entry with (b := partial_bundle); reflexivity.
  - simpl. repeat split; try reflexivity. intros H.
    apply (f_equal model) in H. discriminate H.
Qed.

Lemma load_model_failure_keeps_state_witness :
  load_model unit ∅ untrained_sample
  = (untrained_sample,
     [Warning "Failed to load model"
        (FileNotFoundError "data/models/cml_elimination_model.pkl")]) ∧
  untrained_sample = untrained_sample.
Proof.
  split; [reflexivity|].
  apply (load_model_failure_keeps_state unit ∅ untrained_sample untrained_sample
           (FileNotFoundError "data/models/cml_elimination_model.pkl"));
    [reflexivity | discriminate | discriminate].
Defined.

End EliminationFacts.

(** ** Forecasts *)

Module ForecastFacts.
Import Forecast ForecastSpec Samples.

Lemma fold_max_ge (l : list Z) (a : Z) :
  (a ≤ fold_left Z.max l a)%Z ∧ ∀ x, x ∈ l → (x ≤ fold_left Z.max l a)%Z.
Proof.
  revert a. induction l as [|b l IH]; intros a; simpl.
  - split; [lia|]. intros x Hx. by apply elem_of_nil in Hx.
  - destruct (IH (Z.max a b)) as [H1 H2]. split; [lia|].
    intros x Hx. apply elem_of_cons in Hx as [->|Hx]; [lia|auto].
Qed.

Lemma ds_max_upper (df : list Obs) (m : Z) :
  ds_max df = Some m → ∀ o, o ∈ df → (ds o ≤ m)%Z.
Proof.
  destruct df as [|o0 df]; [done|]. simpl. intros [= <-] o Ho.
  destruct (fold_max_ge (map ds df) (ds o0)) as [H1 H2].
  apply elem_of_cons in Ho as [->|Ho]; [done|].
  apply H2. apply list_elem_of_fmap. eauto.
Qed.

Lemma ds_max_is_Some (df : list Obs) : df ≠ [] → ∃ last, ds_max df = Some last.
Proof. destruct df; [done|]. simpl. eauto. Qed.

Lemma range1_bounds (periods i : Z) : i ∈ range1 periods → (1 ≤ i ≤ periods)%Z.
Proof.
  unfold range1. intros Hi. apply list_elem_of_fmap in Hi as (n & -> & Hn).
  apply list_elem_of_In, in_seq in Hn. lia.
Qed.

Lemma range1_ge_1 (periods i : Z) : i ∈ range1 periods → (1 ≤ i)%Z.
Proof. intros H. apply range1_bounds in H. lia. Qed.

Lemma range1_last (periods : Z) : (1 ≤ periods)%Z → periods ∈ range1 periods.
Proof.
  intros H. unfold range1. apply list_elem_of_fmap. exists (Z.to_nat periods).
  split; [lia|]. apply list_elem_of_In, in_seq. lia.
Qed.

Lemma range1_nil (periods : Z) : range1 periods = [] ↔ (periods < 1)%Z.
Proof.
  unfold range1. split.
  - intros H. apply fmap_nil_inv in H.
    destruct (Z.to_nat periods) eqn:E; [lia|discriminate].
  - intros H. replace (Z.to_nat periods) with 0%nat by lia. reflexivity.
Qed.

Lemma range1_length (periods : Z) : length (range1 periods) = Z.to_nat periods.
Proof. unfold range1. by rewrite length_map, length_seq. Qed.

Lemma lr_predict_ok (m : LinearRegression) (X : list Q) :
  X ≠ [] → lr_predict m X = Ok (map (fun x => (intercept_ m + coef_ m * x)%Q) X).
Proof. by destruct X. Qed.

(** *** The validation of the readings *)

Lemma finite_values_ok (y : list float) :
  None ∉ y → ∃ vs, finite_values y = Ok vs ∧ omap id y = vs ∧ y = map Some vs.
Proof.
  induction y as [|[v|] y IH]; intros Hy.
  - by exists [].
  - destruct IH as (vs & Hvs & Ho & Hm).
    { intros H. apply Hy. by right. }
    exists (v :: vs). subst vs. split; [cbn [finite_values]; by rewrite Hvs|].
    split; [done|]. cbn [map]. by rewrite <- Hm.
  - exfalso. apply Hy. left.
Qed.

Lemma finite_values_nan (y : list float) :
  None ∈ y → finite_values y = Raise nan_in_y.
Proof.
  induction y as [|[v|] y IH]; intros Hy.
  - by apply elem_of_nil in Hy.
  - apply elem_of_cons in Hy as [?|Hy]; [done|]. simpl. by rewrite IH.
  - done.
Qed.

Lemma lr_fit_ok (X : list Q) (y : list float) :
  X ≠ [] → None ∉ y → ∃ m, lr_fit X y = Ok m.
Proof.
  intros HX Hy. destruct X as [|x X]; [done|]. unfold lr_fit.
  destruct (finite_values_ok y Hy) as (vs & -> & _). simpl. eauto.
Qed.

Lemma lr_fit_nan (X : list Q) (y : list float) :
  X ≠ [] → None ∈ y → lr_fit X y = Raise nan_in_y.
Proof.
  intros HX Hy. destruct X as [|x X]; [done|]. unfold lr_fit.
  by rewrite (finite_values_nan y Hy).
Qed.

(** *** The future dates *)

Lemma add_days_ok (d n : Z) :
  (d + n ≤ Timestamp_max)%Z → add_days d n = Ok (d + n)%Z.
Proof. intros H. unfold add_days. apply Z.leb_le in H. by rewrite H. Qed.

Lemma add_days_raise (d n : Z) :
  (Timestamp_max < d + n)%Z → add_days d n = Raise OutOfBoundsDatetime.
Proof. intros H. unfold add_days. apply Z.leb_gt in H. by rewrite H. Qed.

Lemma future_dates_inv (last : Z) (l dates : list Z) :
  mapM (fun i => add_days last (30 * i)) l = Ok dates →
  dates = map (fun i => (last + 30 * i)%Z) l.
Proof.
  revert dates. induction l as [|i l IH]; intros dates; simpl.
  - by intros [= <-].
  - destruct (Z_le_gt_dec (last + 30 * i) Timestamp_max) as [Hi|Hi].
    + rewrite (add_days_ok _ _ Hi). cbn [mbind result_bind].
      destruct (mapM _ l) as [k|e]; cbn [mbind result_bind mret result_ret]; [|done].
      intros [= <-]. by rewrite (IH k).
    + rewrite add_days_raise by lia. cbn [mbind result_bind]. done.
Qed.

Lemma future_dates_ok (last : Z) (l : list Z) :
  Forall (fun i => (last + 30 * i ≤ Timestamp_max)%Z) l →
  mapM (fun i => add_days last (30 * i)) l
  = Ok (map (fun i => (last + 30 * i)%Z) l).
Proof.
  induction 1 as [|i l Hi _ IH]; simpl; [done|].
  rewrite (add_days_ok _ _ Hi). cbn [mbind result_bind]. by rewrite IH.
Qed.

Lemma future_dates_raise (last : Z) (l : list Z) :
  Exists (fun i => (Timestamp_max < last + 30 * i)%Z) l →
  mapM (fun i => add_days last (30 * i)) l = Raise OutOfBoundsDatetime.
Proof.
  induction 1 as [i l Hi|i l _ IH]; simpl.
  - by rewrite (add_days_raise _ _ Hi).
  - destruct (Z_le_gt_dec (last + 30 * i) Timestamp_max) as [Hi|Hi].
    + rewrite (add_days_ok _ _ Hi). cbn [mbind result_bind]. by rewrite IH.
    + by rewrite add_days_raise by lia.
Qed.

Lemma future_dates_within (last periods : Z) :
  (last + 30 * periods ≤ Timestamp_max)%Z →
  Forall (fun i => (last + 30 * i ≤ Timestamp_max)%Z) (range1 periods).
Proof.
  intros H. apply Forall_forall. intros i Hi. apply range1_bounds in Hi. lia.
Qed.

(** *** Sums of rationals *)

Lemma Qsum_zero (l : list Q) : Forall (fun q => q == 0)%Q l → (Qsum l == 0)%Q.
Proof.
  induction 1 as [|q l Hq _ IH]; simpl; [reflexivity|]. rewrite Hq, IH. ring.
Qed.

Lemma Qmean_zero (l : list Q) : (Qsum l == 0)%Q → (Qmean l == 0)%Q.
Proof. intros H. unfold Qmean, Qdiv. rewrite H. ring. Qed.

Lemma np_std_zero (res : list Q) :
  Forall (fun r => r == 0)%Q res → (np_std res == 0)%Q.
Proof.
  intros H. unfold np_std, np_var. apply np_sqrt_zero. cbv zeta.
  apply Qmean_zero, Qsum_zero, Forall_fmap.
  pose proof (Qmean_zero _ (Qsum_zero _ H)) as Hm.
  eapply Forall_impl; [exact H|]. intros r Hr. simpl. rewrite Hr, Hm. ring.
Qed.

(** *** The linear fallback *)

(** What the fallback returns, spelled out. *)
Lemma linear_forecast_rows (df : list Obs) (periods : Z) (rows : list ForecastRow) :
  _linear_forecast df periods = Ok rows →
  ∃ model res last,
    lr_fit (map (fun o => days_since (ds_min df) (ds o)) df) (map y df) = Ok model ∧
    residuals model (map (fun o => days_since (ds_min df) (ds o)) df)
      (omap id (map y df)) = Ok res ∧
    ds_max df = Some last ∧
    Forall (fun i => (1 ≤ i ≤ periods)%Z ∧ (last + 30 * i ≤ Timestamp_max)%Z)
      (range1 periods) ∧
    rows = map (fun i =>
                  {| f_ds := (last + 30 * i)%Z;
                     yhat := (intercept_ model
                              + coef_ model
                                * days_since (ds_min df) (last + 30 * i))%Q;
                     yhat_lower := (intercept_ model
                                    + coef_ model
                                      * days_since (ds_min df) (last + 30 * i)
                                    - (196 # 100) * np_std res)%Q;
                     yhat_upper := (intercept_ model
                                    + coef_ model
                                      * days_since (ds_min df) (last + 30 * i)
                                    + (196 # 100) * np_std res)%Q |})
             (range1 periods).
Proof.
  unfold _linear_forecast. cbv zeta.
  set (X := map (fun o => days_since (ds_min df) (ds o)) df).
  set (Y := map y df).
  destruct (lr_fit X Y) as [model|e] eqn:Hfit; [|done]. cbn [mbind result_bind].
  assert (∃ last, ds_max df = Some last) as [last Hmax].
  { destruct df as [|o df]; [done|]. simpl. eauto. }
  rewrite Hmax. change (default 0%Z (Some last)) with last.
  destruct (mapM _ (range1 periods)) as [dates|e] eqn:Hd; [|done].
  cbn [mbind result_bind].
  assert (Forall (fun i => (1 ≤ i ≤ periods)%Z ∧ (last + 30 * i ≤ Timestamp_max)%Z)
            (range1 periods)) as Hin.
  { apply Forall_forall. intros i Hi. split; [by apply range1_bounds|].
    destruct (Z_le_gt_dec (last + 30 * i) Timestamp_max) as [?|Hgt]; [done|].
    rewrite future_dates_raise in Hd; [done|].
    apply Exists_exists. exists i. split; [done|lia]. }
  apply future_dates_inv in Hd as ->.
  destruct (lr_predict model _) as [preds|e] eqn:Hp; [|done]. cbn [mbind result_bind].
  destruct (residuals model X (omap id Y)) as [res|e] eqn:Hres; [|done].
  cbn [mbind result_bind]. intros [= <-].
  exists model, res, last. split; [done|]. split; [done|]. split; [done|].
  split; [exact Hin|].
  assert (preds = map (fun x => (intercept_ model + coef_ model * x)%Q)
                    (map (days_since (ds_min df))
                       (map (fun i => (last + 30 * i)%Z) (range1 periods)))) as ->.
  { revert Hp. generalize (map (days_since (ds_min df))
                       (map (fun i => (last + 30 * i)%Z) (range1 periods))).
    intros F. destruct F; [intros [=]|]. by intros [= <-]. }
  generalize (range1 periods). intros l.
  induction l as [|i l IH]; simpl; [done|]. by rewrite IH.
Qed.

(** On a history with readings throughout, a horizon of at least one
    whose last date a [Timestamp] can hold gets its rows. *)
Lemma linear_forecast_returns (df : list Obs) (periods : Z) (last : Z) :
  ds_max df = Some last → None ∉ map y df → (1 ≤ periods)%Z →
  (last + 30 * periods ≤ Timestamp_max)%Z →
  ∃ rows, _linear_forecast df periods = Ok rows.
Proof.
  intros Hmax Hy Hp Hlast.
  assert (df ≠ []) as Hdf by (intros ->; done).
  unfold _linear_forecast. cbv zeta.
  destruct (lr_fit_ok (map (fun o => days_since (ds_min df) (ds o)) df) (map y df))
    as [model ->]; [by destruct df|done|].
  cbn [mbind result_bind]. rewrite Hmax. change (default 0%Z (Some last)) with last.
  rewrite (future_dates_ok last _ (future_dates_within last periods Hlast)).
  cbn [mbind result_bind].
  assert (range1 periods ≠ []) as Hr.
  { intros H. apply range1_nil in H. lia. }
  rewrite lr_predict_ok by (by destruct (range1 periods)).
  cbn [mbind result_bind]. unfold residuals.
  rewrite lr_predict_ok by (by destruct df).
  cbn [mbind result_bind]. eauto.
Qed.

Lemma linear_forecast_after_history (df : list Obs) (periods : Z) rows :
  _linear_forecast df periods = Ok rows →
  Forall (fun r => ∃ m, ds_max df = Some m ∧ (m < f_ds r)%Z) rows.
Proof.
  intros H. apply linear_forecast_rows in H as (model & res & last & _ & _ & Hmax & Hin & ->).
  apply Forall_fmap. eapply Forall_impl; [exact Hin|].
  intros i [Hi _]. simpl. exists last. split; [done|lia].
Qed.

(** The failures of the fallback. *)
Lemma linear_forecast_empty (periods : Z) :
  _linear_forecast [] periods = Raise no_samples.
Proof. reflexivity. Qed.

Lemma linear_forecast_nan (df : list Obs) (periods : Z) :
  df ≠ [] → None ∈ map y df → _linear_forecast df periods = Raise nan_in_y.
Proof.
  intros Hdf Hy. unfold _linear_forecast. cbv zeta.
  rewrite lr_fit_nan; [done|by destruct df|done].
Qed.

Lemma linear_forecast_no_horizon (df : list Obs) (periods : Z) :
  df ≠ [] → None ∉ map y df → (periods < 1)%Z →
  _linear_forecast df periods = Raise no_samples.
Proof.
  intros Hdf Hy Hp. unfold _linear_forecast. cbv zeta.
  destruct (lr_fit_ok (map (fun o => days_since (ds_min df) (ds o)) df) (map y df))
    as [model ->]; [by destruct df|done|].
  cbn [mbind result_bind]. apply range1_nil in Hp. rewrite Hp. reflexivity.
Qed.

Lemma linear_forecast_out_of_bounds (df : list Obs) (periods last : Z) :
  ds_max df = Some last → None ∉ map y df → (1 ≤ periods)%Z →
  (Timestamp_max < last + 30 * periods)%Z →
  _linear_forecast df periods = Raise OutOfBoundsDatetime.
Proof.
  intros Hmax Hy Hp Hlast.
  assert (df ≠ []) as Hdf by (intros ->; done).
  unfold _linear_forecast. cbv zeta.
  destruct (lr_fit_ok (map (fun o => days_since (ds_min df) (ds o)) df) (map y df))
    as [model ->]; [by destruct df|done|].
  cbn [mbind result_bind]. rewrite Hmax. change (default 0%Z (Some last)) with last.
  rewrite future_dates_raise; [done|].
  apply Exists_exists. exists periods. split; [by apply range1_last|done].
Qed.

(** One reading is enough: the line is flat at the reading and the
    interval has no width. *)
Lemma linear_forecast_single (o : Obs) (v : Q) (periods : Z) :
  y o = Some v → (1 ≤ periods)%Z →
  (ds o + 30 * periods ≤ Timestamp_max)%Z →
  ∃ rows, _linear_forecast [o] periods = Ok rows ∧
          Z.of_nat (length rows) = periods ∧
          Forall (fun r => (yhat r == v)%Q ∧ (yhat_lower r == v)%Q ∧
                           (yhat_upper r == v)%Q) rows.
Proof.
  intros Hv Hp Hlast.
  destruct (linear_forecast_returns [o] periods (ds o)) as [rows Hrows];
    [done|simpl; rewrite Hv; by intros [?|?%elem_of_nil]%elem_of_cons|done|done|].
  exists rows. split; [exact Hrows|].
  apply linear_forecast_rows in Hrows as (model & res & last & Hfit & Hres & Hmax & _ & ->).
  split; [rewrite length_map, range1_length; lia|].
  simpl in Hmax. injection Hmax as <-.
  cbn [map ds_min fold_left days_since] in Hfit, Hres |- *.
  rewrite Hv in Hfit, Hres. rewrite Z.sub_diag in Hfit, Hres.
  assert (model = {| coef_ := 0; intercept_ := Qmean [v] - 0 * Qmean [inject_Z 0] |})
    as -> by (injection Hfit as <-; reflexivity).
  assert (res = [(v - (Qmean [v] - 0 * Qmean [inject_Z 0] + 0 * inject_Z 0))%Q])
    as -> by (injection Hres as <-; reflexivity).
  assert (Qmean [v] == v)%Q as Hm.
  { unfold Qmean. simpl. field. }
  assert (np_std [(v - (Qmean [v] - 0 * Qmean [inject_Z 0] + 0 * inject_Z 0))%Q] == 0)%Q
    as Hs.
  { apply np_std_zero. constructor; [|constructor]. rewrite Hm. ring. }
  apply Forall_fmap, Forall_forall. intros i _. unfold compose.
  cbn [yhat yhat_lower yhat_upper coef_ intercept_]. rewrite Hs, Hm.
  repeat apply conj; ring.
Qed.

Section Engine.

Variable prophet_predict : list Obs → Z → result (list ForecastRow).

(** C3: whichever strategy produced them, the rows [predict] returns are
    all dated after the latest date of the history. *)
Theorem forecast_causality (mt : model_type) (df : list Obs) (periods : Z) rows :
  predict prophet_predict mt df periods = Ok rows →
  Forall (fun r => ∃ m, ds_max df = Some m ∧ (m < f_ds r)%Z ∧
                        ∀ o, o ∈ df → (ds o < f_ds r)%Z) rows.
Proof.
  intros H.
  assert (Forall (fun r => ∃ m, ds_max df = Some m ∧ (m < f_ds r)%Z) rows) as Hrows.
  { destruct mt; simpl in H; try by apply linear_forecast_after_history in H.
    unfold _prophet_forecast in H.
    destruct (prophet_predict df periods) as [fc|];
      [|by apply linear_forecast_after_history in H].
    injection H as <-. apply Forall_forall. intros r Hr.
    apply list_elem_of_In, filter_In in Hr as [_ Hr]. unfold after_history in Hr.
    destruct (ds_max df) as [m|]; [|done]. exists m. split; [done|lia]. }
  eapply Forall_impl; [exact Hrows|]. intros r (m & Hm & Hlt).
  exists m. repeat split; [done..|]. intros o Ho.
  pose proof (ds_max_upper df m Hm o Ho). lia.
Qed.

(** Only a failure of the fallback reaches the caller. *)
Lemma predict_raises (mt : model_type) (df : list Obs) (periods : Z) (e : exn) :
  predict prophet_predict mt df periods = Raise e ↔
  _linear_forecast df periods = Raise e ∧
  (mt = prophet → ∃ e', prophet_predict df periods = Raise e').
Proof.
  destruct mt; simpl.
  - unfold _prophet_forecast. destruct (prophet_predict df periods) as [fc|e'].
    + split; [done|]. intros [_ H]. destruct (H eq_refl) as [? ?]. done.
    + split; [eauto|]. by intros [H _].
  - split; [intros H|intros [H _]]; done.
  - split; [intros H|intros [H _]]; done.
Qed.

(** C4, as the code has it.  A call fails only through the fallback:
    whatever the seasonal model raises is absorbed, and the call then
    fails exactly when the fallback does, with the fallback's error.  The
    fallback needs no second reading: on one reading, with a horizon of
    at least one whose dates a [Timestamp] can hold, it returns a flat
    forecast at the reading with an interval of no width.  On an empty
    history it fails with the regression's complaint about an array
    without rows, which names no lack of data; and that is not its only
    failure: a reading that is NaN, a horizon below one and a future
    date past the last day of [Timestamp] each end the call too. *)
Theorem forecast_failure (mt : model_type) (df : list Obs) (periods : Z) :
  (∀ e, predict prophet_predict mt df periods = Raise e ↔
        _linear_forecast df periods = Raise e ∧
        (mt = prophet → ∃ e', prophet_predict df periods = Raise e')) ∧
  (∀ o v, df = [o] → y o = Some v → (1 ≤ periods)%Z →
          (ds o + 30 * periods ≤ Timestamp_max)%Z →
          ∃ rows, _linear_forecast df periods = Ok rows ∧
                  Z.of_nat (length rows) = periods ∧
                  Forall (fun r => (yhat r == v)%Q ∧ (yhat_lower r == v)%Q ∧
                                   (yhat_upper r == v)%Q) rows) ∧
  (df = [] → _linear_forecast df periods = Raise no_samples) ∧
  (df ≠ [] → None ∈ map y df → _linear_forecast df periods = Raise nan_in_y) ∧
  (df ≠ [] → None ∉ map y df → (periods < 1)%Z →
   _linear_forecast df periods = Raise no_samples) ∧
  (∀ last, ds_max df = Some last → None ∉ map y df → (1 ≤ periods)%Z →
           (Timestamp_max < last + 30 * periods)%Z →
           _linear_forecast df periods = Raise OutOfBoundsDatetime).
Proof.
  split; [intros e; apply predict_raises|].
  split; [intros o v ->; apply linear_forecast_single|].
  split; [intros ->; apply linear_forecast_empty|].
  split; [apply linear_forecast_nan|].
  split; [apply linear_forecast_no_horizon|].
  intros last. apply linear_forecast_out_of_bounds.
Qed.

End Engine.

(** *** Concrete runs *)

Example scenario_days :
  map ds scenario = [737425%Z; 737791%Z; 738156%Z].
Proof. reflexivity. Qed.

Example Timestamp_max_day : Timestamp_max = 825914%Z.
Proof. reflexivity. Qed.

Lemma forecast_causality_witness :
  Forall (fun r => ∃ m, ds_max scenario = Some m ∧ (m < f_ds r)%Z ∧
                        ∀ o, o ∈ scenario → (ds o < f_ds r)%Z)
    (rows_of (predict prophet_fails prophet scenario 2)).
Proof.
  apply (forecast_causality prophet_fails prophet scenario 2).
  vm_compute. reflexivity.
Defined.

(** C4 fails as stated: with a single reading and the seasonal model
    failing, the call does not fail; the fallback returns two rows, a
    constant forecast with an interval of width zero. *)
Lemma single_reading_forecast_returns :
  ∃ r1 r2,
    predict prophet_fails prophet single_reading 2 = Ok [r1; r2] ∧
    (yhat r1 == 10)%Q ∧ (yhat r2 == 10)%Q ∧
    (yhat_lower r1 == yhat_upper r1)%Q ∧ (yhat_lower r2 == yhat_upper r2)%Q.
Proof.
  eexists _, _. split; [vm_compute; reflexivity|].
  repeat apply conj; vm_compute; reflexivity.
Qed.

(** The failures that reach the caller, on the sample histories: no
    reading at all, a reading that is missing, a horizon of zero, and a
    horizon of 3000 steps, whose 2926th date is past 2262-04-11. *)
Lemma forecast_failure_witness :
  predict prophet_fails prophet [] 2 = Raise no_samples ∧
  predict prophet_fails prophet gap_scenario 2 = Raise nan_in_y ∧
  predict prophet_fails linear scenario 0 = Raise no_samples ∧
  predict prophet_fails linear scenario 3000 = Raise OutOfBoundsDatetime.
Proof.
  pose proof (forecast_failure prophet_fails prophet [] 2) as (H1 & _ & H3 & _).
  pose proof (forecast_failure prophet_fails prophet gap_scenario 2)
    as (G1 & _ & _ & G4 & _).
  pose proof (forecast_failure prophet_fails linear scenario 0)
    as (Z1 & _ & _ & _ & Z5 & _).
  pose proof (forecast_failure prophet_fails linear scenario 3000)
    as (B1 & _ & _ & _ & _ & B6).
  repeat apply conj.
  - apply H1. split; [by apply H3|]. intros _. by eexists.
  - apply G1. split; [|intros _; by eexists].
    apply G4; [done|]. simpl. right. left.
  - apply Z1. split; [|done]. apply Z5; [done| |lia].
    simpl. intros H. repeat (apply elem_of_cons in H as [H|H]; [done|]).
    by apply elem_of_nil in H.
  - apply B1. split; [|done]. apply (B6 738156%Z); [reflexivity| |lia|].
    + simpl. intros H. repeat (apply elem_of_cons in H as [H|H]; [done|]).
      by apply elem_of_nil in H.
    + vm_compute. reflexivity.
Defined.

(** The longest horizon of the scenario is 2925 steps. *)
Example scenario_longest_horizon :
  (∃ rows, predict prophet_fails linear scenario 2925 = Ok rows) ∧
  predict prophet_fails linear scenario 2926 = Raise OutOfBoundsDatetime.
Proof.
  split; [|vm_compute; reflexivity].
  apply (linear_forecast_returns scenario 2925 738156); [reflexivity| |lia|].
  - simpl. intros H. repeat (apply elem_of_cons in H as [H|H]; [done|]).
    by apply elem_of_nil in H.
  - vm_compute. discriminate.
Qed.

Example scenario_regressors :
  map (fun o => (days_since (ds_min scenario) (ds o), y o)) scenario
  = map (fun p => (p.1, Some p.2)) scenario_points.
Proof. vm_compute. reflexivity. Qed.

(** The line of the scenario satisfies the normal equations, and the
    variance of its residuals is 1/2404626. *)
Example scenario_line_fits :
  least_squares scenario_line scenario_points ∧
  (Qmean (map (fun r => r * r) (in_sample_residuals scenario_line scenario_points))
   == 1 # 2404626)%Q.
Proof. repeat apply conj; vm_compute; reflexivity. Qed.

(** C9: on the three yearly readings with a horizon of two, the linear
    fallback returns exactly two rows, dated 30 and 60 days after the last
    reading.  Their estimates are the values, 761 and 791 days after the
    first reading, of the least-squares line through the readings; each
    bound is the estimate minus or plus 1.96 times a number [s] that is
    the standard deviation of the in-sample residuals of that line (the
    readings minus the values of the line), so that the half-width is
    0.001263..., and each bound lies strictly below or above the
    estimate. *)
Theorem linear_forecast_scenario :
  ∃ r1 r2 s,
    _linear_forecast scenario 2 = Ok [r1; r2] ∧
    map (fun o => (days_since (ds_min scenario) (ds o), y o)) scenario
    = map (fun p => (p.1, Some p.2)) scenario_points ∧
    f_ds r1 = (738156 + 30)%Z ∧ f_ds r2 = (738156 + 60)%Z ∧
    (f_ds r1 < f_ds r2)%Z ∧
    least_squares scenario_line scenario_points ∧
    (yhat r1 == scenario_line 761)%Q ∧ (yhat r2 == scenario_line 791)%Q ∧
    std_of (1 # 10 ^ 25) (in_sample_residuals scenario_line scenario_points) s ∧
    (1263 # 1000000 < (196 # 100) * s)%Q ∧ ((196 # 100) * s < 1264 # 1000000)%Q ∧
    (yhat_lower r1 == yhat r1 - (196 # 100) * s)%Q ∧
    (yhat_upper r1 == yhat r1 + (196 # 100) * s)%Q ∧
    (yhat_lower r2 == yhat r2 - (196 # 100) * s)%Q ∧
    (yhat_upper r2 == yhat r2 + (196 # 100) * s)%Q ∧
    (yhat_lower r1 < yhat r1)%Q ∧ (yhat r1 < yhat_upper r1)%Q ∧
    (yhat_lower r2 < yhat r2)%Q ∧ (yhat r2 < yhat_upper r2)%Q.
Proof.
  eexists _, _, ?[s]. split; [vm_compute; reflexivity|].
  match goal with
  | |- context [(yhat_upper ?r == yhat ?r + _)%Q] =>
      let u := eval vm_compute in ((yhat_upper r - yhat r) * (100 # 196))%Q in
      instantiate (s := u)
  end.
  repeat apply conj; vm_compute; first [reflexivity | discriminate].
Qed.

End ForecastFacts.

(** ** Explanations *)

Module ExplainabilityFacts.
Import Explainability ExplainabilitySpec.

Lemma dict_set_fresh {V} (k : string) (v : V) (d : pydict V) :
  k ∉ map fst d → dict_set k v d = d ++ [(k, v)].
Proof.
  induction d as [|[k' v'] d IH]; simpl; intros Hk; [done|].
  destruct (String.eqb k k') eqn:E.
  - apply String.eqb_eq in E as ->. exfalso. apply Hk. left.
  - rewrite IH; [done|]. intros H. apply Hk. by right.
Qed.

Lemma fold_dict_set_fresh {V} (pairs : list (string * V)) :
  ∀ d : pydict V,
    NoDup (map fst d ++ map fst pairs) →
    fold_left (fun d kv => dict_set kv.1 kv.2 d) pairs d = d ++ pairs.
Proof.
  induction pairs as [|[k v] pairs IH]; intros d Hnd; simpl.
  - by rewrite app_nil_r.
  - simpl in Hnd. apply NoDup_app in Hnd as (Hd & Hdisj & Hp).
    rewrite dict_set_fresh.
    + rewrite IH; [by rewrite <- app_assoc|].
      rewrite map_app. simpl. rewrite <- app_assoc. simpl.
      apply NoDup_app. repeat split; [done| |done].
      intros x Hx Hx'. by apply (Hdisj x).
    + intros Hk. apply (Hdisj k Hk). left.
Qed.

Lemma dict_of_NoDup {V} (pairs : list (string * V)) :
  NoDup (map fst pairs) → dict_of pairs = pairs.
Proof. intros H. unfold dict_of. by rewrite fold_dict_set_fresh. Qed.

Lemma dict_of_zip_values (names : list string) (phi : list Q) :
  NoDup names → length phi = length names →
  dict_values (dict_of (zip names phi)) = phi.
Proof.
  intros Hnd Hlen. rewrite dict_of_NoDup.
  - unfold dict_values. apply snd_zip. lia.
  - rewrite fst_zip by lia. done.
Qed.

Lemma mapM_result_Forall2 {A B} (f : A → result B) (l : list A) (k : list B) :
  mapM f l = Ok k → Forall2 (fun a b => f a = Ok b) l k.
Proof.
  revert k. induction l as [|a l IH]; intros k; simpl.
  - intros [= <-]. constructor.
  - destruct (f a) as [b|e] eqn:Hb; simpl; [|done].
    destruct (mapM f l) as [k'|e]; simpl; [|done].
    intros [= <-]. constructor; [done|]. by apply IH.
Qed.

Section Explainer.

Variable Explainer : Type.
Variable shap_values : Explainer → list (list Q) → result ShapValues.
Variable expected_value : Explainer → ExpectedValue.

(** C7: when the explainer honours the additive contract to tolerance
    [eps] and [feature_names] names the columns of [X] without repeats,
    every explanation that [explain_prediction] returns is complete: its
    base value plus the sum of the attributions in its dictionary is
    within [eps] of the raw output of the model on that row, the
    attributions and the base value being those of the positive class
    when the explainer returns one set per class. *)
Theorem attribution_completeness
  (self : ModelExplainer Explainer) (raw_output : list Q → Q) (eps : Q)
  (n_features : nat) (X : list (list Q)) (feature_names : list string)
  (res : ExplainResult) :
  (∀ ex, explainer self = Some ex →
         explainer_additive shap_values expected_value eps raw_output ex X) →
  NoDup feature_names →
  Forall (fun x => length x = length feature_names) X →
  explain_prediction Explainer shap_values expected_value self n_features X feature_names
  = Some res →
  length (explanations res) = length X ∧
  ∀ i e x,
    explanations res !! i = Some e → X !! i = Some x →
    (Qabs (base_value_ e + Qsum (dict_values (shap_values_ e)) - raw_output x) <= eps)%Q.
Proof.
  intros Hadd Hnd Hwidth. unfold explain_prediction.
  destruct (explainer self) as [ex|]; [|done].
  specialize (Hadd ex eq_refl). unfold explainer_additive in Hadd.
  unfold explain_try. destruct (shap_values ex X) as [sv|err]; [|done].
  cbn [mbind result_bind].
  assert (∀ values b rows,
            additive eps b raw_output X values →
            mapM (M := result) (fun i =>
              match values !! i with
              | Some row => Ok (explain_row feature_names b row)
              | None => Raise (IndexError "index out of bounds")
              end) (seq 0 (length X)) = Ok rows →
            length rows = length X ∧
            ∀ i e x, rows !! i = Some e → X !! i = Some x →
              (Qabs (base_value_ e + Qsum (dict_values (shap_values_ e)) - raw_output x)
               <= eps)%Q) as Hrows.
  { intros values b rows Hv Hm. apply mapM_result_Forall2 in Hm. split.
    - apply Forall2_length in Hm. by rewrite length_seq in Hm.
    - intros i e x He Hx.
      destruct (Forall2_lookup_r _ _ _ _ _ Hm He) as (j & Hj & Hf).
      apply lookup_seq in Hj as [-> _]. simpl in Hf.
      destruct (Forall2_lookup_l _ _ _ _ _ Hv Hx) as (phi & Hphi & Hlen & Hbound).
      rewrite Hphi in Hf. injection Hf as <-. simpl.
      rewrite dict_of_zip_values; [done|done|].
      rewrite Hlen. by eapply Forall_lookup_1 in Hwidth. }
  destruct sv as [classes|values].
  - destruct (classes !! 1%nat) as [values|] eqn:Hc; [|done].
    cbn [mbind result_bind].
    destruct (expected_value ex) as [a|b]; [|done].
    destruct (a !! 1%nat) as [b|] eqn:Ha; [|done]. cbn [mbind result_bind].
    destruct (mapM _ _) as [rows|err] eqn:Hm; [|done]. cbn [mbind result_bind].
    intros [= <-]. simpl. eapply Hrows; [|exact Hm]. by apply Hadd.
  - cbn [mbind result_bind].
    destruct (expected_value ex) as [a|b]; [done|]. cbn [mbind result_bind].
    destruct (mapM _ _) as [rows|err] eqn:Hm; [|done]. cbn [mbind result_bind].
    intros [= <-]. simpl. eapply Hrows; [|exact Hm]. exact Hadd.
Qed.

End Explainer.

Import Samples.

Example sample_explanation_bases :
  map base_value_
    (explanations
       (explained (explain_prediction unit sample_shap_values sample_expected_value
                     sample_explainer 2 sample_X sample_feature_names)))
  = [(1 # 2)%Q; (1 # 2)%Q].
Proof. vm_compute. reflexivity. Qed.

Lemma attribution_completeness_witness :
  length
    (explanations
       (explained (explain_prediction unit sample_shap_values sample_expected_value
                     sample_explainer 2 sample_X sample_feature_names)))
  = length sample_X ∧
  ∀ i e x,
    explanations
      (explained (explain_prediction unit sample_shap_values sample_expected_value
                    sample_explainer 2 sample_X sample_feature_names)) !! i = Some e →
    sample_X !! i = Some x →
    (Qabs (base_value_ e + Qsum (dict_values (shap_values_ e)) - sample_raw_output x)
     <= 0)%Q.
Proof.
  apply (attribution_completeness unit sample_shap_values sample_expected_value
           sample_explainer sample_raw_output 0 2 sample_X sample_feature_names).
  - intros ex _. unfold explainer_additive. simpl.
    intros values b [= <-] [= <-].
    repeat (constructor; [split; [reflexivity|vm_compute; discriminate]|]).
    constructor.
  - apply (bool_decide_unpack _). reflexivity.
  - repeat constructor.
  - vm_compute. reflexivity.
Defined.

End ExplainabilityFacts.
